(** * Pydantic directives of autodoc_pydantic

    A shallow embedding of [sphinxcontrib/autodoc_pydantic/directives.py]:
    the five specialised Sphinx directives (model, settings, field,
    validator, config class), their signature prefix and the
    post-processing that the field and validator directives apply to a
    signature node after the host's generic signature handling.

    Signature nodes are mutated in place by the Python code and exceptions
    leave the mutations done so far in place, so node-manipulating code is
    written in a state-and-exception monad whose failures keep the state. *)

From Stdlib Require Import Ascii.
From stdpp Require Import base option strings list gmap.

Set Warnings "-register-all".

(** ** Python values held by options *)

(** The values an option can resolve to: [None], a flag (converted by
    [option_default_true]) or a text (converted by [unchanged]). *)
Inductive PyVal : Type :=
| PyNone
| PyBool (b : bool)
| PyStr (s : string).

(** Python truthiness: [None], [False] and the empty string are falsy. *)
Definition truthy (v : PyVal) : bool :=
  match v with
  | PyNone => false
  | PyBool b => b
  | PyStr s => if decide (s = "") then false else true
  end.

(** [a or b] *)
Definition py_or (a b : PyVal) : PyVal := if truthy a then a else b.

(** [f"{v}"] *)
Definition py_format (v : PyVal) : string :=
  match v with
  | PyNone => "None"
  | PyBool true => "True"
  | PyBool false => "False"
  | PyStr s => s
  end.

(** [s.split(sep)] for a one-character separator. The result is never
    empty, so indexing it with [0] or [-1] cannot raise. *)
Fixpoint split (sep : Ascii.ascii) (s : string) : list string :=
  match s with
  | EmptyString => [EmptyString]
  | String c s' =>
      if Ascii.eqb c sep then EmptyString :: split sep s'
      else match split sep s' with
           | [] => [String c EmptyString]
           | w :: ws => String c w :: ws
           end
  end.

(** [s.split(".")[-1]] *)
Definition last_component (s : string) : string :=
  default "" (last (split "."%char s)).

(** ** Exceptions *)

Inductive PyExc : Type :=
| IndexError
| KeyError (key : string)
| UnresolvedClass (dotted : string)
| UnresolvedMember (name : string)
| HostError (msg : string).

(** ** Output tree *)

(** A docutils node: a text leaf or an element with a tag name, the raw
    source it came from, its attributes, its [classes] and its children. *)
Inductive Node : Type :=
| Text (data : string)
| Element (tag rawsource : string) (attrs : list (string * string))
          (classes : list string) (children : list Node).

Definition tagname (n : Node) : string :=
  match n with
  | Text _ => "#text"
  | Element tag _ _ _ _ => tag
  end.

Fixpoint astext (n : Node) : string :=
  match n with
  | Text data => data
  | Element _ _ _ _ children =>
      foldr (λ c acc, astext c +:+ acc) "" children
  end.

(** [TextElement(rawsource, text, **attributes)]: a non-empty text
    becomes the first child. *)
Definition text_element (tag rawsource text : string)
    (classes : list string) : Node :=
  Element tag rawsource [] classes
    (if decide (text = "") then [] else [Text text]).

Definition desc_annotation (rawsource text : string)
    (classes : list string) : Node :=
  text_element "desc_annotation" rawsource text classes.

(** The rendered signature node: its attributes (the host stores the
    dotted name under ["fullname"]) and its children. *)
Record desc_signature : Type := mk_signode {
  attributes : gmap string string;
  children : list Node
}.

(** ** State and exceptions *)

(** A computation over the signature node being rendered. A raised
    exception carries no rollback: the node is returned as it was when the
    exception was raised. *)
Definition M (A : Type) : Type :=
  desc_signature → desc_signature * (PyExc + A).

#[export] Instance M_ret : MRet M := λ A a s, (s, inr a).

#[export] Instance M_bind : MBind M := λ A B k m s,
  match m s with
  | (s', inr a) => k a s'
  | (s', inl e) => (s', inl e)
  end.

#[export] Instance M_throw : MThrow PyExc M := λ A e s, (s, inl e).

(** Embeds a query that does not touch the node. *)
Definition liftE {A} (r : PyExc + A) : M A := λ s, (s, r).

(** The node itself, as an argument of a call. *)
Definition get_signode : M desc_signature := λ s, (s, inr s).

(** [signode[key]] *)
Definition getitem (key : string) : M string := λ s,
  match attributes s !! key with
  | Some v => (s, inr v)
  | None => (s, inl (KeyError key))
  end.

(** [signode += node] *)
Definition append_child (n : Node) : M unit := λ s,
  (mk_signode (attributes s) (children s ++ [n]), inr ()).

(** Runs a procedure that mutates [signode.children] in place. *)
Definition on_children (f : list Node → list Node) : M unit := λ s,
  (mk_signode (attributes s) (f (children s)), inr ()).

(** [for x in xs: body(x)] *)
Fixpoint for_each {A} (xs : list A) (body : A → M unit) : M unit :=
  match xs with
  | [] => mret ()
  | x :: xs' => body x;; for_each xs' body
  end.

(** [xs[0]] *)
Definition first_item {A} (xs : list A) : PyExc + A :=
  match xs with
  | [] => inl IndexError
  | x :: _ => inr x
  end.

(** ** Option Resolver *)

(** Modelled from the spec: [PydanticAutoDirective] lives in [util.py],
    which is not among the available sources. An option's effective value
    is the directive-local override when there is one, else the
    document-wide default; an option configured nowhere resolves to
    [None], which is the normal case and not an error. *)
Record PydanticAutoDirective : Type := {
  options : gmap string PyVal;
  config : gmap string PyVal
}.

Definition get_option_value (p : PydanticAutoDirective)
    (name : string) : PyVal :=
  match options p !! name with
  | Some v => v
  | None => default PyNone (config p !! name)
  end.

(** ** Member Wrapper *)

(** Declared field of a class: its attribute name and its alias. *)
Record ModelField : Type := {
  name : string;
  alias : string
}.

(** Member metadata of a loaded class: the declared fields and, for every
    validator, the fields it is bound to in declaration order. *)
Record Model : Type := {
  fields : list ModelField;
  validators : list (string * list string)
}.

(** The object-model runtime: the loaded class that the dotted name of a
    signature node belongs to, if there is one. *)
Record Runtime : Type := {
  locate : string → option Model
}.

Module ModelWrapper.

(** Modelled from the spec: [ModelWrapper] lives in [inspection.py],
    which is not among the available sources. It is a transient view
    over one class, found from the dotted name of the signature node;
    a class or member that cannot be resolved is a hard error. *)
Record t : Type := wrap { model : Model }.

Definition from_signode (rt : Runtime) (signode : desc_signature)
    : PyExc + t :=
  match attributes signode !! "fullname" with
  | None => inl (KeyError "fullname")
  | Some dotted =>
      match locate rt dotted with
      | None => inl (UnresolvedClass dotted)
      | Some m => inr (wrap m)
      end
  end.

Definition get_field_object_by_name (w : t) (field_name : string)
    : PyExc + ModelField :=
  match List.find (λ f, String.eqb (name f) field_name)
                  (fields (model w)) with
  | None => inl (UnresolvedMember field_name)
  | Some f => inr f
  end.

Definition get_fields_for_validator (w : t) (validator_name : string)
    : PyExc + list string :=
  match List.find (λ v, String.eqb (fst v) validator_name)
                  (validators (model w)) with
  | None => inl (UnresolvedMember validator_name)
  | Some v => inr (snd v)
  end.

End ModelWrapper.

(** ** Node helpers of [util.py] *)

Record BuildEnvironment : Type := {
  docname : string
}.

(** Modelled from the spec: [create_field_href] lives in [util.py], which
    is not among the available sources. It builds the cross-reference node
    of one field, in the document being built. *)
Definition create_field_href (field : string) (env : BuildEnvironment)
    : Node :=
  Element "pending_xref" field
    [("refdoc", docname env); ("reftarget", field)] [] [Text field].

(** Modelled from the spec: [remove_node_by_tagname] lives in [util.py],
    which is not among the available sources. It removes, in place, the
    children that carry the given tag. *)
Definition remove_node_by_tagname (nodes : list Node) (tag : string)
    : list Node :=
  List.filter (λ n, negb (String.eqb (tagname n) tag)) nodes.

(** ** Host *)

(** The generic directives of the documentation host that the pydantic
    directives derive from. *)
Inductive HostBase : Type := PyClasslike | PyAttribute | PyMethod.

(** The host's generic signature handling, [handle_signature] of a base
    class. It builds the signature node in place, asks the directive for
    its signature prefix and returns the pair [(fullname, prefix)], or
    raises. The host is outside this repository and is left abstract. *)
Record Host : Type := {
  generic_handle_signature :
    HostBase → (string → string) → string → M (string * string)
}.

(** ** Directives *)

Inductive DirectiveKind : Type :=
| KModel
| KSettings
| KField
| KValidator
| KConfigClass.

(** A directive instance: which class it is, its option resolver
    ([self.pyautodoc]) and the build environment ([self.env]). *)
Record Directive : Type := {
  kind : DirectiveKind;
  pyautodoc : PydanticAutoDirective;
  env : BuildEnvironment
}.

Definition config_name (k : DirectiveKind) : string :=
  match k with
  | KModel => "model"
  | KSettings => "settings"
  | KField => "field"
  | KValidator => "validator"
  | KConfigClass => "config"
  end.

Definition default_prefix (k : DirectiveKind) : string :=
  match k with
  | KModel => "class"
  | KSettings => "class"
  | KField => "attribute"
  | KValidator => "classmethod"
  | KConfigClass => "class"
  end.

(** The host class each directive derives from. *)
Definition host_base (k : DirectiveKind) : HostBase :=
  match k with
  | KModel | KSettings | KConfigClass => PyClasslike
  | KField => PyAttribute
  | KValidator => PyMethod
  end.

Module PydanticDirectiveBase.

Definition get_signature_prefix (self : Directive) (sig : string)
    : string :=
  let config_name := config_name (kind self) +:+ "-signature-prefix" in
  let prefix := get_option_value (pyautodoc self) config_name in
  let value := py_or prefix (PyStr (default_prefix (kind self))) in
  py_format value +:+ " ".

End PydanticDirectiveBase.

Module PydanticField.

Definition add_alias (rt : Runtime) : M unit :=
  fullname ← getitem "fullname";
  let field_name := last_component fullname in
  signode ← get_signode;
  wrapper ← liftE (ModelWrapper.from_signode rt signode);
  field ← liftE (ModelWrapper.get_field_object_by_name wrapper field_name);
  let alias := alias field in
  if decide (alias ≠ field_name)
  then append_child (desc_annotation "" (" (alias '" +:+ alias +:+ "')") [])
  else mret ().

Definition handle_signature (host : Host) (rt : Runtime)
    (self : Directive) (sig : string) : M (string * string) :=
  '(fullname, prefix) ← generic_handle_signature host PyAttribute
      (PydanticDirectiveBase.get_signature_prefix self) sig;
  (if truthy (get_option_value (pyautodoc self) "field-show-alias")
   then add_alias rt
   else mret ());;
  mret (fullname, prefix).

End PydanticField.

Module PydanticValidator.

Definition replace_return_node (rt : Runtime) (self : Directive)
    : M unit :=
  on_children (λ nodes, remove_node_by_tagname nodes "desc_parameterlist");;
  let class_name := "autodoc_pydantic_validator_arrow" in
  append_child (desc_annotation "" "  »  " [class_name]);;
  fullname ← getitem "fullname";
  let validator_name := last_component fullname in
  signode ← get_signode;
  wrapper ← liftE (ModelWrapper.from_signode rt signode);
  fields ← liftE (ModelWrapper.get_fields_for_validator wrapper validator_name);
  first_field ← liftE (first_item fields);
  append_child (create_field_href first_field (env self));;
  for_each (tail fields) (λ field,
    append_child (desc_annotation "" ", " []);;
    append_child (create_field_href field (env self))).

Definition handle_signature (host : Host) (rt : Runtime)
    (self : Directive) (sig : string) : M (string * string) :=
  '(fullname, prefix) ← generic_handle_signature host PyMethod
      (PydanticDirectiveBase.get_signature_prefix self) sig;
  (if truthy (get_option_value (pyautodoc self) "validator-replace-signature")
   then replace_return_node rt self
   else mret ());;
  mret (fullname, prefix).

End PydanticValidator.

(** Method resolution: the field and validator directives override
    [handle_signature]; the model, settings and config-class directives
    inherit it from the host's class-like directive. *)
Definition handle_signature (host : Host) (rt : Runtime)
    (self : Directive) (sig : string) : M (string * string) :=
  match kind self with
  | KField => PydanticField.handle_signature host rt self sig
  | KValidator => PydanticValidator.handle_signature host rt self sig
  | KModel | KSettings | KConfigClass =>
      generic_handle_signature host PyClasslike
        (PydanticDirectiveBase.get_signature_prefix self) sig
  end.

(** ** Expected shapes used in the statements *)

(** [sep] between consecutive nodes, as a comma-joined rendering. *)
Fixpoint join_nodes (sep : Node) (ns : list Node) : list Node :=
  match ns with
  | [] => []
  | [n] => [n]
  | n :: rest => n :: sep :: join_nodes sep rest
  end.

Definition is_reference (n : Node) : bool :=
  String.eqb (tagname n) "pending_xref".

(** The separator that [replace_return_node] puts before the fields. *)
Definition validator_arrow : Node :=
  desc_annotation "" "  »  " ["autodoc_pydantic_validator_arrow"].

(** The separator that [replace_return_node] puts between two fields. *)
Definition field_separator : Node := desc_annotation "" ", " [].

(** The reference node that a validator directive renders for a field. *)
Definition field_reference (self : Directive) (field : string) : Node :=
  create_field_href field (env self).

(** The annotation that [add_alias] renders for an alias. *)
Definition alias_annotation (alias : string) : Node :=
  desc_annotation "" (" (alias '" +:+ alias +:+ "')") [].

(** The node once [replace_return_node] has dropped the parameter list
    and appended the separator, before any field is looked up. *)
Definition partially_rewritten (signode : desc_signature)
    : desc_signature :=
  mk_signode (attributes signode)
    (remove_node_by_tagname (children signode) "desc_parameterlist"
       ++ [validator_arrow]).

(** The bound-field lookup of [replace_return_node], as a query on the
    node: the fields of the validator that the node describes. *)
Definition bound_fields (rt : Runtime) (signode : desc_signature)
    : PyExc + list string :=
  match attributes signode !! "fullname" with
  | None => inl (KeyError "fullname")
  | Some fullname =>
      match ModelWrapper.from_signode rt signode with
      | inl e => inl e
      | inr wrapper =>
          ModelWrapper.get_fields_for_validator wrapper
            (last_component fullname)
      end
  end.

(** The node's dotted name resolves to class [m] and to its field [f]. *)
Definition resolves_field (rt : Runtime) (dotted : string) (m : Model)
    (f : ModelField) (signode : desc_signature) : Prop :=
  attributes signode !! "fullname" = Some dotted
  ∧ locate rt dotted = Some m
  ∧ ModelWrapper.get_field_object_by_name (ModelWrapper.wrap m)
      (last_component dotted) = inr f.

(** What the ['<construct>-signature-prefix'] option of a directive
    resolves to. *)
Definition prefix_override (self : Directive) : PyVal :=
  get_option_value (pyautodoc self)
    (config_name (kind self) +:+ "-signature-prefix").

(** The step that a directive adds after the host's generic handling. *)
Definition post_processing (rt : Runtime) (self : Directive) : M unit :=
  match kind self with
  | KField =>
      if truthy (get_option_value (pyautodoc self) "field-show-alias")
      then PydanticField.add_alias rt
      else mret ()
  | KValidator =>
      if truthy (get_option_value (pyautodoc self)
                   "validator-replace-signature")
      then PydanticValidator.replace_return_node rt self
      else mret ()
  | KModel | KSettings | KConfigClass => mret ()
  end.

(** ** Sample inputs *)

Module Sample.

(** A host whose generic handling records the dotted name on the node
    and leaves the children alone: handling a node twice gives the same
    node, so whatever changes on a second call is the directive's. *)
Definition recording_host : Host := {|
  generic_handle_signature := λ _ get_prefix sig s,
    (mk_signode (<["fullname" := sig]> (attributes s)) (children s),
     inr (sig, get_prefix sig))
|}.

(** A host that renders as the documentation host does, by appending:
    the prefix annotation, the name and, for a method, the parameter
    list. *)
Definition appending_host : Host := {|
  generic_handle_signature := λ base get_prefix sig s,
    (mk_signode (<["fullname" := sig]> (attributes s))
       (children s
          ++ [desc_annotation (get_prefix sig) (get_prefix sig) [];
              text_element "desc_name" sig (last_component sig) []]
          ++ match base with
             | PyMethod => [Element "desc_parameterlist" "" [] []
                              [Text "cls"; Text "v"]]
             | _ => []
             end),
     inr (sig, get_prefix sig))
|}.

Definition user_model : Model := {|
  fields := [ {| name := "identifier"; alias := "id" |};
              {| name := "email"; alias := "email" |} ];
  validators := [ ("check_all", ["a"; "b"; "c"]); ("check_none", []) ]
|}.

Definition runtime : Runtime := {|
  locate := λ dotted,
    match split "."%char dotted with
    | "User" :: _ => Some user_model
    | _ => None
    end
|}.

Definition build_env : BuildEnvironment := {| docname := "index" |}.

Definition directive (k : DirectiveKind) (opts : list (string * PyVal))
    : Directive := {|
  kind := k;
  pyautodoc := {| options := list_to_map opts; config := ∅ |};
  env := build_env
|}.

Definition empty_node : desc_signature := mk_signode ∅ [].

Definition node (fullname : string) (cs : list Node) : desc_signature :=
  mk_signode {["fullname" := fullname]} cs.

Definition name_node (s : string) : Node :=
  text_element "desc_name" s s [].

Definition parameter_list : Node :=
  Element "desc_parameterlist" "" [] [] [Text "cls"; Text "v"].

End Sample.

(** ** Option declarations *)

(** The converters an option can be declared with: [unchanged] is
    docutils', [option_default_true] and [option_list_like] are those of
    [util.py]; the host's classes may declare options with others. *)
Inductive Converter : Type :=
| unchanged
| option_default_true
| option_list_like
| host_converter (name : string).

(** [d.update(items)]: the items are stored one after the other. *)
Definition dict_update {V} (d : gmap string V) (items : list (string * V))
    : gmap string V :=
  foldl (λ acc item, <[item.1 := item.2]> acc) d items.

(** The dict literal that each directive class passes to
    [option_spec.update]. *)
Definition declared_options (k : DirectiveKind)
    : list (string * Converter) :=
  match k with
  | KModel =>
      [("__doc_disable_except__", option_list_like);
       ("model-signature-prefix", unchanged)]
  | KSettings =>
      [("__doc_disable_except__", option_list_like);
       ("settings-signature-prefix", unchanged)]
  | KField =>
      [("field-show-alias", option_default_true);
       ("__doc_disable_except__", option_list_like);
       ("field-signature-prefix", unchanged)]
  | KValidator =>
      [("validator-replace-signature", option_default_true);
       ("__doc_disable_except__", option_list_like);
       ("validator-signature-prefix", unchanged)]
  | KConfigClass =>
      [("__doc_disable_except__", option_list_like);
       ("config-signature-prefix", unchanged)]
  end.

(** [option_spec] of a directive class: a copy of the [option_spec] of
    its host class, updated with the class's own declarations. The host's
    declarations are a parameter. *)
Definition option_spec (host_spec : HostBase → gmap string Converter)
    (k : DirectiveKind) : gmap string Converter :=
  dict_update (host_spec (host_base k)) (declared_options k).

(** The field lookup of [add_alias], as a query on the node: the field
    that the node describes. *)
Definition field_lookup (rt : Runtime) (signode : desc_signature)
    : PyExc + ModelField :=
  match attributes signode !! "fullname" with
  | None => inl (KeyError "fullname")
  | Some fullname =>
      match ModelWrapper.from_signode rt signode with
      | inl e => inl e
      | inr wrapper =>
          ModelWrapper.get_field_object_by_name wrapper
            (last_component fullname)
      end
  end.

(** The nodes that [replace_return_node] appends for a list of fields. *)
Definition validator_suffix (self : Directive) (fields : list string)
    : list Node :=
  validator_arrow
    :: join_nodes field_separator (map (field_reference self) fields).

(** Declarations of a host, for the examples. *)
Definition sample_host_spec (base : HostBase) : gmap string Converter :=
  match base with
  | PyClasslike =>
      {[ "noindex" := host_converter "flag"; "module" := unchanged ]}
  | PyAttribute =>
      {[ "noindex" := host_converter "flag";
         "field-show-alias" := host_converter "flag" ]}
  | PyMethod =>
      {[ "noindex" := host_converter "flag";
         "classmethod" := host_converter "flag" ]}
  end.

(** A host that refuses an empty signature and otherwise renders by
    appending, for the examples. *)
Definition strict_host : Host := {|
  generic_handle_signature := λ base get_prefix sig s,
    if decide (sig = "")
    then (s, inl (HostError "invalid signature"))
    else generic_handle_signature Sample.appending_host base get_prefix sig s
|}.

(** The node's dotted name resolves to class [m], and [m] declares the
    validator of that name once, bound to the fields [bindings] in this
    order. *)
Definition declares_validator (rt : Runtime) (dotted : string) (m : Model)
    (bindings : list string) (signode : desc_signature) : Prop :=
  attributes signode !! "fullname" = Some dotted
  ∧ locate rt dotted = Some m
  ∧ NoDup (validators m).*1
  ∧ (last_component dotted, bindings) ∈ validators m.

(** Whether the step that a directive adds after the host's generic
    handling adds nothing to the node: always for the class-like
    directives; for a field when ['field-show-alias'] resolves false,
    when the field cannot be looked up or when its alias is its name;
    for a validator when ['validator-replace-signature'] resolves
    false. *)
Definition own_step_idle (rt : Runtime) (self : Directive)
    (signode : desc_signature) : bool :=
  match kind self with
  | KField =>
      negb (truthy (get_option_value (pyautodoc self) "field-show-alias"))
      || match field_lookup rt signode with
         | inl _ => true
         | inr f => bool_decide (alias f = name f)
         end
  | KValidator =>
      negb (truthy (get_option_value (pyautodoc self)
                      "validator-replace-signature"))
  | KModel | KSettings | KConfigClass => true
  end.

(** * Properties *)

(** ** Basic facts *)

Lemma split_nonempty sep s : split sep s ≠ [].
Proof.
  destruct s as [|c s]; simpl; [done|].
  destruct (Ascii.eqb c sep); [done|].
  by destruct (split sep s).
Qed.

Lemma string_app_empty_r (s : string) : s +:+ "" = s.
Proof.
  induction s as [|c s IH]; [done|].
  change (String c (s +:+ "") = String c s). by rewrite IH.
Qed.

Lemma astext_desc_annotation rawsource text classes :
  astext (desc_annotation rawsource text classes) = text.
Proof.
  unfold desc_annotation, text_element.
  case_decide; simpl; [done|apply string_app_empty_r].
Qed.

(** Running a computation: one equation per primitive. *)

Lemma run_bind {A B} (m : M A) (k : A → M B) s :
  (m ≫= k) s =
    match m s with
    | (s', inr a) => k a s'
    | (s', inl e) => (s', inl e)
    end.
Proof. done. Qed.

Lemma run_bind_ret {A B} (m : M A) (k : A → M B) s s' a :
  m s = (s', inr a) → (m ≫= k) s = k a s'.
Proof. intros H. by rewrite run_bind, H. Qed.

Lemma run_liftE {A} (r : PyExc + A) s : liftE r s = (s, r).
Proof. done. Qed.

Lemma run_getitem key s v :
  attributes s !! key = Some v → getitem key s = (s, inr v).
Proof. intros H. unfold getitem. by rewrite H. Qed.

Lemma find_field_name w field_name f :
  ModelWrapper.get_field_object_by_name w field_name = inr f →
  name f = field_name.
Proof.
  unfold ModelWrapper.get_field_object_by_name.
  destruct (List.find _ _) as [g|] eqn:Hfind; [|done].
  intros [= <-]. apply find_some in Hfind as [_ Heq].
  by apply String.eqb_eq.
Qed.

(** ** Signature prefix *)

Section signature_prefix.
Import PydanticDirectiveBase.

Variables (self : Directive) (sig : string).

Lemma get_signature_prefix_falsy :
  truthy (prefix_override self) = false →
  get_signature_prefix self sig = default_prefix (kind self) +:+ " ".
Proof.
  intros H. unfold get_signature_prefix, py_or.
  fold (prefix_override self). by rewrite H.
Qed.

Lemma get_signature_prefix_truthy :
  truthy (prefix_override self) = true →
  get_signature_prefix self sig = py_format (prefix_override self) +:+ " ".
Proof.
  intros H. unfold get_signature_prefix, py_or.
  fold (prefix_override self). by rewrite H.
Qed.

(** C1, as amended: when the ['<construct>-signature-prefix'] option
    is unset, [get_signature_prefix] returns the hard-coded label of the
    directive kind ('class' for model, settings and config class,
    'attribute' for field, 'classmethod' for validator) followed by one
    space; when it is set to a non-empty text, it returns exactly that
    text followed by one space. *)
Theorem get_signature_prefix_label_or_override (override : option string) :
  prefix_override self = from_option PyStr PyNone override →
  override ≠ Some "" →
  get_signature_prefix self sig =
    default
      match kind self with
      | KModel | KSettings | KConfigClass => "class"
      | KField => "attribute"
      | KValidator => "classmethod"
      end
      override +:+ " ".
Proof.
  intros Hres Hne. destruct override as [text|]; simpl in *.
  - rewrite get_signature_prefix_truthy; rewrite Hres; [done|].
    simpl. case_decide; [congruence|done].
  - rewrite get_signature_prefix_falsy by (by rewrite Hres).
    by destruct (kind self).
Qed.

(** C9: when the ['<construct>-signature-prefix'] option is set to the
    empty string, [get_signature_prefix] returns the hard-coded default
    label followed by one space, as if the option were unset. *)
Theorem get_signature_prefix_empty_override :
  prefix_override self = PyStr "" →
  get_signature_prefix self sig = default_prefix (kind self) +:+ " ".
Proof.
  intros Hres. apply get_signature_prefix_falsy. by rewrite Hres.
Qed.

End signature_prefix.

(** C1, as stated, fails for an override set to the empty text: the
    model directive then answers its default label ["class "], not the
    override followed by one space. *)
Lemma get_signature_prefix_override_refuted :
  let self := Sample.directive KModel [("model-signature-prefix", PyStr "")] in
  prefix_override self = PyStr ""
  ∧ PydanticDirectiveBase.get_signature_prefix self "User" = "class "
  ∧ PydanticDirectiveBase.get_signature_prefix self "User" ≠ "" +:+ " ".
Proof. by vm_compute. Qed.

Lemma get_signature_prefix_label_or_override_witness :
  PydanticDirectiveBase.get_signature_prefix
    (Sample.directive KValidator []) "check_all" = "classmethod "
  ∧ PydanticDirectiveBase.get_signature_prefix
      (Sample.directive KModel
         [("model-signature-prefix", PyStr "pydantic model")]) "User"
    = "pydantic model ".
Proof.
  split.
  - apply (get_signature_prefix_label_or_override
             (Sample.directive KValidator []) "check_all" None);
      [reflexivity|discriminate].
  - apply (get_signature_prefix_label_or_override
             (Sample.directive KModel
                [("model-signature-prefix", PyStr "pydantic model")])
             "User" (Some "pydantic model"));
      [reflexivity|discriminate].
Defined.

Lemma get_signature_prefix_empty_override_witness :
  PydanticDirectiveBase.get_signature_prefix
    (Sample.directive KField [("field-signature-prefix", PyStr "")])
    "User.email" = "attribute ".
Proof.
  apply (get_signature_prefix_empty_override
           (Sample.directive KField [("field-signature-prefix", PyStr "")])
           "User.email").
  reflexivity.
Defined.

(** ** Field directive *)

Section field_alias.
Import ModelWrapper PydanticField.

Variables (rt : Runtime) (dotted : string) (m : Model) (f : ModelField).

Lemma add_alias_resolved signode :
  resolves_field rt dotted m f signode →
  add_alias rt signode =
    if decide (alias f ≠ last_component dotted)
    then (mk_signode (attributes signode)
            (children signode ++ [alias_annotation (alias f)]), inr ())
    else (signode, inr ()).
Proof.
  intros (Hname & Hloc & Hfield). unfold add_alias.
  rewrite (run_bind_ret _ _ _ _ _ (run_getitem _ _ _ Hname)).
  rewrite (run_bind_ret get_signode _ signode signode signode eq_refl).
  rewrite run_bind, run_liftE. unfold from_signode. rewrite Hname, Hloc.
  rewrite run_bind, run_liftE, Hfield.
  by case_decide.
Qed.

(** C3: for a field whose alias equals its declared name, [add_alias]
    leaves the signature node unchanged; no annotation is appended. *)
Theorem add_alias_same_name signode :
  resolves_field rt dotted m f signode →
  alias f = name f →
  add_alias rt signode = (signode, inr ()).
Proof.
  intros Hres Heq. rewrite add_alias_resolved by done.
  destruct Hres as (_ & _ & Hfield).
  rewrite Heq, (find_field_name _ _ _ Hfield). by case_decide.
Qed.

(** C2: for a field whose alias differs from its declared name, when
    ['field-show-alias'] resolves true, [handle_signature] appends
    to the node that the host's generic handling produced exactly one
    annotation node, whose text is the alias of the field rendered as
    [" (alias '<alias>')"]. *)
Theorem handle_signature_appends_alias host self sig signode
    signode' fullname prefix :
  generic_handle_signature host PyAttribute
    (PydanticDirectiveBase.get_signature_prefix self) sig signode
    = (signode', inr (fullname, prefix)) →
  truthy (get_option_value (pyautodoc self) "field-show-alias") = true →
  resolves_field rt dotted m f signode' →
  alias f ≠ name f →
  PydanticField.handle_signature host rt self sig signode =
    (mk_signode (attributes signode')
       (children signode' ++ [alias_annotation (alias f)]),
     inr (fullname, prefix))
  ∧ tagname (alias_annotation (alias f)) = "desc_annotation"
  ∧ astext (alias_annotation (alias f)) = " (alias '" +:+ alias f +:+ "')".
Proof.
  intros Hhost Hopt Hres Hne. split; [|split; [done|]].
  - unfold PydanticField.handle_signature.
    rewrite (run_bind_ret _ _ _ _ _ Hhost). simpl. rewrite Hopt.
    rewrite run_bind, add_alias_resolved by done.
    destruct Hres as (_ & _ & Hfield).
    rewrite <- (find_field_name _ _ _ Hfield). by case_decide.
  - apply astext_desc_annotation.
Qed.

End field_alias.

Lemma add_alias_same_name_witness :
  PydanticField.add_alias Sample.runtime
    (Sample.node "User.email" [Sample.name_node "email"])
  = (Sample.node "User.email" [Sample.name_node "email"], inr ()).
Proof.
  apply (add_alias_same_name Sample.runtime "User.email" Sample.user_model
           {| name := "email"; alias := "email" |}).
  - repeat split; reflexivity.
  - reflexivity.
Defined.

Lemma handle_signature_appends_alias_witness :
  let self := Sample.directive KField [("field-show-alias", PyBool true)] in
  let rendered :=
    (generic_handle_signature Sample.appending_host PyAttribute
       (PydanticDirectiveBase.get_signature_prefix self)
       "User.identifier" Sample.empty_node).1 in
  (PydanticField.handle_signature Sample.appending_host Sample.runtime self
     "User.identifier" Sample.empty_node
   = (mk_signode (attributes rendered)
        (children rendered ++ [alias_annotation "id"]),
      inr ("User.identifier", "attribute "))
   ∧ tagname (alias_annotation "id") = "desc_annotation"
   ∧ astext (alias_annotation "id") = " (alias '" +:+ "id" +:+ "')")
  ∧ " (alias '" +:+ "id" +:+ "')" = " (alias 'id')".
Proof.
  split; [|reflexivity].
  apply (handle_signature_appends_alias Sample.runtime "User.identifier"
           Sample.user_model {| name := "identifier"; alias := "id" |}
           Sample.appending_host).
  - reflexivity.
  - reflexivity.
  - repeat split; reflexivity.
  - discriminate.
Defined.

(** ** Validator directive *)

Section validator_fields.
Import ModelWrapper PydanticValidator.

Variables (rt : Runtime) (self : Directive).

Lemma bound_fields_attributes s s' :
  attributes s' = attributes s → bound_fields rt s' = bound_fields rt s.
Proof.
  intros H. unfold bound_fields, from_signode. by rewrite H.
Qed.

Lemma run_for_each_fields fields s :
  for_each fields (λ field,
    append_child (desc_annotation "" ", " []);;
    append_child (create_field_href field (env self))) s
  = (mk_signode (attributes s)
       (children s ++ concat (map (λ field, [field_separator; field_reference self field])
                           fields)),
     inr ()).
Proof.
  revert s. induction fields as [|field fields IH]; intros s.
  - destruct s. simpl. by rewrite app_nil_r.
  - simpl. rewrite run_bind. simpl. rewrite IH. simpl.
    by rewrite <- !app_assoc.
Qed.

Lemma join_nodes_cons sep n ns :
  join_nodes sep (n :: ns) = n :: concat (map (λ x, [sep; x]) ns).
Proof.
  revert n. induction ns as [|x ns IH]; intros n; [done|].
  change (join_nodes sep (n :: x :: ns))
    with (n :: sep :: join_nodes sep (x :: ns)).
  by rewrite IH.
Qed.

(** The whole of [replace_return_node], by the outcome of the lookup. *)
Lemma replace_return_node_run signode :
  replace_return_node rt self signode =
    match bound_fields rt signode with
    | inl e => (partially_rewritten signode, inl e)
    | inr [] => (partially_rewritten signode, inl IndexError)
    | inr (field :: fields) =>
        (mk_signode (attributes signode)
           (children (partially_rewritten signode)
              ++ join_nodes field_separator
                  (map (field_reference self) (field :: fields))),
         inr ())
    end.
Proof.
  unfold replace_return_node.
  rewrite (run_bind_ret _ _ signode
             (mk_signode (attributes signode)
                (remove_node_by_tagname (children signode)
                   "desc_parameterlist")) ()) by done.
  rewrite (run_bind_ret _ _ _ (partially_rewritten signode) ()) by done.
  rewrite <- (bound_fields_attributes signode (partially_rewritten signode))
    by done.
  change (attributes signode)
    with (attributes (partially_rewritten signode)).
  generalize (partially_rewritten signode) as s. intros s.
  unfold bound_fields. rewrite run_bind. unfold getitem.
  destruct (attributes s !! "fullname") as [fullname|] eqn:Hname; [|done].
  rewrite (run_bind_ret get_signode _ s s s eq_refl).
  rewrite run_bind, run_liftE.
  destruct (from_signode rt s) as [e|wrapper]; [done|].
  rewrite run_bind, run_liftE.
  destruct (get_fields_for_validator wrapper (last_component fullname))
    as [e|[|field fields]]; [done|done|].
  rewrite run_bind, run_liftE. simpl first_item. cbv iota.
  rewrite run_bind. unfold append_child at 1. cbv beta iota. simpl tail.
  rewrite run_for_each_fields. simpl attributes. simpl children.
  simpl map. by rewrite join_nodes_cons, List.map_map, <- app_assoc.
Qed.

End validator_fields.

Section validator_claims.
Import PydanticValidator.

Variables (host : Host) (rt : Runtime) (self : Directive).

Lemma remove_node_by_tagname_tags nodes tag :
  Forall (λ n, tagname n ≠ tag) (remove_node_by_tagname nodes tag).
Proof.
  unfold remove_node_by_tagname. apply Forall_forall. intros n Hin.
  apply list_elem_of_In, filter_In in Hin as [_ Hin].
  apply negb_true_iff, String.eqb_neq in Hin. done.
Qed.

Lemma remove_node_by_tagname_idem nodes tag :
  remove_node_by_tagname (remove_node_by_tagname nodes tag) tag
  = remove_node_by_tagname nodes tag.
Proof.
  unfold remove_node_by_tagname.
  induction nodes as [|n nodes IH]; simpl; [done|].
  destruct (negb (tagname n =? tag)%string) eqn:Hn; simpl; [|done].
  by rewrite Hn, IH.
Qed.

Lemma remove_node_by_tagname_app nodes nodes' tag :
  remove_node_by_tagname (nodes ++ nodes') tag
  = remove_node_by_tagname nodes tag ++ remove_node_by_tagname nodes' tag.
Proof. apply List.filter_app. Qed.

Lemma partially_rewritten_changes signode :
  partially_rewritten signode ≠ signode.
Proof.
  intros Heq. apply (f_equal children) in Heq. simpl in Heq.
  pose proof (f_equal (λ ns, remove_node_by_tagname ns "desc_parameterlist")
                Heq) as Hrm.
  simpl in Hrm.
  rewrite remove_node_by_tagname_app, remove_node_by_tagname_idem in Hrm.
  apply (f_equal length) in Hrm. rewrite length_app in Hrm.
  simpl in Hrm. lia.
Qed.

Lemma join_nodes_tags fields :
  Forall (λ n, tagname n ≠ "desc_parameterlist")
    (join_nodes field_separator (map (field_reference self) fields)).
Proof.
  destruct fields as [|field fields]; [constructor|].
  simpl map. rewrite join_nodes_cons.
  constructor; [done|].
  induction fields as [|g fields IH]; simpl; [constructor|].
  by repeat constructor.
Qed.

Lemma join_nodes_references fields :
  List.filter is_reference
    (join_nodes field_separator (map (field_reference self) fields))
  = map (field_reference self) fields.
Proof.
  destruct fields as [|field fields]; [done|].
  simpl map. rewrite join_nodes_cons. simpl. f_equal.
  induction fields as [|g fields IH]; simpl; [done|]. by rewrite IH.
Qed.

Lemma find_declared_validator (vs : list (string * list string)) name
    bindings :
  NoDup vs.*1 → (name, bindings) ∈ vs →
  List.find (λ v, String.eqb (fst v) name) vs = Some (name, bindings).
Proof.
  induction vs as [|[n b] vs IH]; intros Hnodup Hin.
  - by apply elem_of_nil in Hin.
  - rewrite fmap_cons in Hnodup. apply NoDup_cons in Hnodup as [Hfresh Hnodup].
    simpl. apply elem_of_cons in Hin as [[= <- <-]|Hin].
    + by rewrite String.eqb_refl.
    + destruct (String.eqb_spec n name) as [->|_]; [|by apply IH].
      destruct Hfresh. by apply (list_elem_of_fmap_2 fst _ (name, bindings)).
Qed.

(** The member wrapper reports the fields of a validator as the class
    declares them, in the order of the declaration. *)
Lemma declares_validator_bound_fields dotted m bindings signode :
  declares_validator rt dotted m bindings signode →
  bound_fields rt signode = inr bindings.
Proof.
  intros (Hname & Hloc & Hnodup & Hin).
  unfold bound_fields, ModelWrapper.from_signode,
    ModelWrapper.get_fields_for_validator.
  rewrite Hname, Hloc. simpl.
  by rewrite (find_declared_validator _ _ _ Hnodup Hin).
Qed.

(** C4: for a validator bound to N >= 1 fields, when
    ['validator-replace-signature'] resolves true, [replace_return_node]
    removes the rendered parameter list from the node and appends the
    separator annotation followed by exactly N field reference nodes,
    joined by [", "] annotations, in the order in which the member
    wrapper reports the fields, which is the order in which the class
    declares the validator's field bindings. *)
Theorem replace_return_node_lists_fields sig signode signode'
    fullname prefix dotted m field fields :
  generic_handle_signature host PyMethod
    (PydanticDirectiveBase.get_signature_prefix self) sig signode
    = (signode', inr (fullname, prefix)) →
  truthy (get_option_value (pyautodoc self) "validator-replace-signature")
    = true →
  declares_validator rt dotted m (field :: fields) signode' →
  let references := map (field_reference self) (field :: fields) in
  let appended := validator_arrow :: join_nodes field_separator references in
  let rewritten :=
    mk_signode (attributes signode')
      (remove_node_by_tagname (children signode') "desc_parameterlist"
         ++ appended) in
  replace_return_node rt self signode' = (rewritten, inr ())
  ∧ PydanticValidator.handle_signature host rt self sig signode
    = (rewritten, inr (fullname, prefix))
  ∧ Forall (λ n, tagname n ≠ "desc_parameterlist") (children rewritten)
  ∧ List.filter is_reference appended = references
  ∧ length references = S (length fields).
Proof.
  intros Hhost Hopt Hbound%declares_validator_bound_fields
    references appended rewritten.
  assert (replace_return_node rt self signode' = (rewritten, inr ()))
    as Hrun.
  { rewrite replace_return_node_run, Hbound. unfold rewritten.
    simpl children. by rewrite <- app_assoc. }
  split; [done|]. split; [|split; [|split]].
  - unfold PydanticValidator.handle_signature. rewrite (run_bind_ret _ _ _ _ _ Hhost).
    simpl. rewrite Hopt. by rewrite run_bind, Hrun.
  - simpl. apply Forall_app. split.
    + apply remove_node_by_tagname_tags.
    + constructor; [done|]. apply join_nodes_tags.
  - unfold appended.
    change (List.filter is_reference (validator_arrow :: ?l))
      with (List.filter is_reference l).
    apply join_nodes_references.
  - unfold references. by rewrite length_map.
Qed.

(** C5: for a validator bound to no field, with
    ['validator-replace-signature'] resolving true,
    [replace_return_node] does not complete: indexing the first of the
    (empty) list of bound fields raises [IndexError], and so does the
    signature handling that called it; the replacement is not skipped. *)
Theorem replace_return_node_no_fields sig signode signode'
    fullname prefix :
  generic_handle_signature host PyMethod
    (PydanticDirectiveBase.get_signature_prefix self) sig signode
    = (signode', inr (fullname, prefix)) →
  truthy (get_option_value (pyautodoc self) "validator-replace-signature")
    = true →
  bound_fields rt signode' = inr [] →
  (replace_return_node rt self signode').2 = inl IndexError
  ∧ (PydanticValidator.handle_signature host rt self sig signode).2 = inl IndexError
  ∧ replace_return_node rt self signode' ≠ (signode', inr ()).
Proof.
  intros Hhost Hopt Hbound.
  assert (replace_return_node rt self signode'
          = (partially_rewritten signode', inl IndexError)) as Hrun.
  { by rewrite replace_return_node_run, Hbound. }
  split; [by rewrite Hrun|]. split; [|by rewrite Hrun].
  unfold PydanticValidator.handle_signature. rewrite (run_bind_ret _ _ _ _ _ Hhost).
  simpl. rewrite Hopt. by rewrite run_bind, Hrun.
Qed.

(** C6: when ['validator-replace-signature'] resolves false,
    [handle_signature] of the validator directive is the host's generic
    handling and nothing more: the node is left as the generic handling
    produced it, parameter list included, and the pair returned is the
    one the generic handling returned. *)
Theorem handle_signature_replace_disabled sig signode :
  truthy (get_option_value (pyautodoc self) "validator-replace-signature")
    = false →
  PydanticValidator.handle_signature host rt self sig signode
  = generic_handle_signature host PyMethod
      (PydanticDirectiveBase.get_signature_prefix self) sig signode.
Proof.
  intros Hopt. unfold PydanticValidator.handle_signature. rewrite run_bind.
  destruct (generic_handle_signature _ _ _ _ _)
    as [signode' [e|[fullname prefix]]]; [done|].
  simpl. by rewrite Hopt.
Qed.

(** C10: [replace_return_node] is not atomic. When the lookup of the
    bound fields fails, or finds no field so that indexing the first one
    fails, the error is raised on a node that has already lost its
    parameter list and gained the separator annotation. *)
Theorem replace_return_node_not_atomic signode :
  (∀ field fields, bound_fields rt signode ≠ inr (field :: fields)) →
  ∃ e,
    replace_return_node rt self signode
    = (partially_rewritten signode, inl e)
    ∧ children (partially_rewritten signode)
      = remove_node_by_tagname (children signode) "desc_parameterlist"
          ++ [validator_arrow]
    ∧ partially_rewritten signode ≠ signode.
Proof.
  intros Hfail. rewrite replace_return_node_run.
  destruct (bound_fields rt signode) as [e|[|field fields]].
  - exists e. eauto using partially_rewritten_changes.
  - exists IndexError. eauto using partially_rewritten_changes.
  - by destruct (Hfail field fields).
Qed.

End validator_claims.

Lemma replace_return_node_lists_fields_witness :
  let self :=
    Sample.directive KValidator
      [("validator-replace-signature", PyBool true)] in
  let rendered :=
    (generic_handle_signature Sample.appending_host PyMethod
       (PydanticDirectiveBase.get_signature_prefix self)
       "User.check_all" Sample.empty_node).1 in
  let references := map (field_reference self) ["a"; "b"; "c"] in
  let appended := validator_arrow :: join_nodes field_separator references in
  let rewritten :=
    mk_signode (attributes rendered)
      (remove_node_by_tagname (children rendered) "desc_parameterlist"
         ++ appended) in
  PydanticValidator.replace_return_node Sample.runtime self rendered
  = (rewritten, inr ())
  ∧ PydanticValidator.handle_signature Sample.appending_host Sample.runtime
      self "User.check_all" Sample.empty_node
    = (rewritten, inr ("User.check_all", "classmethod "))
  ∧ Forall (λ n, tagname n ≠ "desc_parameterlist") (children rewritten)
  ∧ List.filter is_reference appended = references
  ∧ length references = 3.
Proof.
  apply (replace_return_node_lists_fields Sample.appending_host
           Sample.runtime
           (Sample.directive KValidator
              [("validator-replace-signature", PyBool true)])
           "User.check_all" Sample.empty_node _
           "User.check_all" "classmethod " "User.check_all"
           Sample.user_model "a" ["b"; "c"]).
  - reflexivity.
  - reflexivity.
  - split; [reflexivity|]. split; [reflexivity|].
    split; apply (bool_decide_unpack _); vm_compute; reflexivity.
Defined.

Lemma replace_return_node_no_fields_witness :
  let self :=
    Sample.directive KValidator
      [("validator-replace-signature", PyBool true)] in
  let rendered :=
    (generic_handle_signature Sample.appending_host PyMethod
       (PydanticDirectiveBase.get_signature_prefix self)
       "User.check_none" Sample.empty_node).1 in
  (PydanticValidator.replace_return_node Sample.runtime self rendered).2
  = inl IndexError
  ∧ (PydanticValidator.handle_signature Sample.appending_host
       Sample.runtime self "User.check_none" Sample.empty_node).2
    = inl IndexError
  ∧ PydanticValidator.replace_return_node Sample.runtime self rendered
    ≠ (rendered, inr ()).
Proof.
  apply (replace_return_node_no_fields Sample.appending_host
           Sample.runtime
           (Sample.directive KValidator
              [("validator-replace-signature", PyBool true)])
           "User.check_none" Sample.empty_node _
           "User.check_none" "classmethod ").
  - reflexivity.
  - reflexivity.
  - reflexivity.
Defined.

Lemma handle_signature_replace_disabled_witness :
  let self :=
    Sample.directive KValidator
      [("validator-replace-signature", PyBool false)] in
  PydanticValidator.handle_signature Sample.appending_host Sample.runtime
    self "User.check_all" Sample.empty_node
  = generic_handle_signature Sample.appending_host PyMethod
      (PydanticDirectiveBase.get_signature_prefix self)
      "User.check_all" Sample.empty_node.
Proof.
  apply (handle_signature_replace_disabled Sample.appending_host
           Sample.runtime
           (Sample.directive KValidator
              [("validator-replace-signature", PyBool false)])).
  reflexivity.
Defined.

Lemma replace_return_node_not_atomic_witness :
  let self :=
    Sample.directive KValidator
      [("validator-replace-signature", PyBool true)] in
  let signode :=
    Sample.node "User.check_none"
      [Sample.name_node "check_none"; Sample.parameter_list] in
  ∃ e,
    PydanticValidator.replace_return_node Sample.runtime self signode
    = (partially_rewritten signode, inl e)
    ∧ children (partially_rewritten signode)
      = remove_node_by_tagname (children signode) "desc_parameterlist"
          ++ [validator_arrow]
    ∧ partially_rewritten signode ≠ signode.
Proof.
  apply (replace_return_node_not_atomic Sample.runtime
           (Sample.directive KValidator
              [("validator-replace-signature", PyBool true)])
           (Sample.node "User.check_none"
              [Sample.name_node "check_none"; Sample.parameter_list])).
  intros field fields. vm_compute. discriminate.
Defined.

(** ** Class-like directives and repeated handling *)

Section all_directives.

Variables (host : Host) (rt : Runtime) (self : Directive) (sig : string).

Lemma handle_signature_post_processing signode :
  handle_signature host rt self sig signode =
    ('(fullname, prefix) ← generic_handle_signature host
        (host_base (kind self))
        (PydanticDirectiveBase.get_signature_prefix self) sig;
     post_processing rt self;;
     mret (fullname, prefix)) signode.
Proof.
  unfold handle_signature, post_processing,
    PydanticField.handle_signature, PydanticValidator.handle_signature.
  destruct (kind self); try done; simpl; rewrite run_bind;
    by destruct (generic_handle_signature _ _ _ _ _)
      as [signode' [e|[fullname prefix]]].
Qed.

(** C7: the model, settings and config-class directives do not override
    the generic signature handling. Their [handle_signature] is the
    host's class-like handling given their [get_signature_prefix]: it
    consults no class metadata and adds no step of its own that could
    touch the node. *)
Theorem classlike_handle_signature_generic signode :
  In (kind self) [KModel; KSettings; KConfigClass] →
  handle_signature host rt self sig signode
  = generic_handle_signature host PyClasslike
      (PydanticDirectiveBase.get_signature_prefix self) sig signode
  ∧ (∀ rt', handle_signature host rt' self sig signode
            = handle_signature host rt self sig signode)
  ∧ (∀ s, post_processing rt self s = (s, inr ())).
Proof.
  intros Hkind. unfold handle_signature, post_processing.
  destruct (kind self); simpl in Hkind; try done;
    intuition congruence.
Qed.

End all_directives.

Lemma classlike_handle_signature_generic_witness :
  let self := Sample.directive KSettings [] in
  PydanticDirectiveBase.get_signature_prefix self "AppSettings" = "class "
  ∧ (handle_signature Sample.appending_host Sample.runtime self
       "AppSettings" Sample.empty_node
     = generic_handle_signature Sample.appending_host PyClasslike
         (PydanticDirectiveBase.get_signature_prefix self)
         "AppSettings" Sample.empty_node
     ∧ (∀ rt', handle_signature Sample.appending_host rt' self
                 "AppSettings" Sample.empty_node
               = handle_signature Sample.appending_host Sample.runtime self
                   "AppSettings" Sample.empty_node)
     ∧ (∀ s, post_processing Sample.runtime self s = (s, inr ()))).
Proof.
  split; [reflexivity|].
  apply (classlike_handle_signature_generic Sample.appending_host
           Sample.runtime (Sample.directive KSettings []) "AppSettings"
           Sample.empty_node).
  simpl. tauto.
Defined.

(** C8, as stated, fails: handling the output of a first call again
    appends a second time. For the field [identifier] with alias [id] the
    second call leaves two alias annotations; for the validator
    [check_all] it leaves the separator and the three references twice.
    The host used here handles a node twice as it handles it once, so the
    difference is the directive's own. *)
Lemma handle_signature_idempotence_refuted :
  (let self := Sample.directive KField [("field-show-alias", PyBool true)] in
   let run :=
     handle_signature Sample.recording_host Sample.runtime self
       "User.identifier" in
   ∃ once twice result,
     run Sample.empty_node = (once, inr result)
     ∧ run once = (twice, inr result)
     ∧ children once = [alias_annotation "id"]
     ∧ children twice = [alias_annotation "id"; alias_annotation "id"]
     ∧ twice ≠ once)
  ∧
  (let self :=
     Sample.directive KValidator
       [("validator-replace-signature", PyBool true)] in
   let run :=
     handle_signature Sample.recording_host Sample.runtime self
       "User.check_all" in
   let fields :=
     join_nodes field_separator (map (field_reference self) ["a"; "b"; "c"]) in
   ∃ once twice result,
     run (mk_signode ∅ [Sample.parameter_list]) = (once, inr result)
     ∧ run once = (twice, inr result)
     ∧ children once = validator_arrow :: fields
     ∧ children twice
       = (validator_arrow :: fields) ++ (validator_arrow :: fields)
     ∧ twice ≠ once).
Proof.
  split.
  - eexists _, _, _. split; [reflexivity|]. split; [reflexivity|].
    split; [reflexivity|]. split; [reflexivity|].
    intros H. apply (f_equal (λ s, length (children s))) in H.
    vm_compute in H. discriminate.
  - eexists _, _, _. split; [reflexivity|]. split; [reflexivity|].
    split; [reflexivity|]. split; [reflexivity|].
    intros H. apply (f_equal (λ s, length (children s))) in H.
    vm_compute in H. discriminate.
Qed.


(** * Further properties of the directives *)

(** ** Dotted names *)

Lemma split_app_sep sep a b :
  split sep (a +:+ String sep b) = split sep a ++ split sep b.
Proof.
  induction a as [|c a IH].
  - change ("" +:+ String sep b) with (String sep b). simpl.
    by rewrite Ascii.eqb_refl.
  - change (String c a +:+ String sep b)
      with (String c (a +:+ String sep b)).
    simpl. rewrite IH. destruct (Ascii.eqb c sep); [done|].
    pose proof (split_nonempty sep a). by destruct (split sep a).
Qed.

Lemma split_no_sep sep s :
  ¬ In sep (String.list_ascii_of_string s) → split sep s = [s].
Proof.
  induction s as [|c s IH]; simpl; [done|]. intros Hnot.
  destruct (Ascii.eqb_spec c sep) as [->|_]; [tauto|].
  rewrite IH by tauto. done.
Qed.

Lemma split_components_no_sep sep s :
  Forall (λ w, ¬ In sep (String.list_ascii_of_string w)) (split sep s).
Proof.
  induction s as [|c s IH]; simpl.
  - constructor; [tauto|constructor].
  - destruct (Ascii.eqb_spec c sep) as [->|Hne].
    + constructor; [simpl; tauto|done].
    + destruct (split sep s) as [|w ws]; [repeat constructor; simpl; tauto|].
      inversion IH as [|? ? Hw Hws]; subst.
      constructor; [|done]. simpl. intros [?|?]; [done|tauto].
Qed.

(** X1: the member name that [add_alias] and [replace_return_node] take
    from a dotted name is its last component: for [owner.member] with no
    dot in [member] it is [member], however many dots [owner] has. *)
Theorem last_component_of_dotted owner member :
  ¬ In "."%char (String.list_ascii_of_string member) →
  last_component (owner +:+ "." +:+ member) = member.
Proof.
  intros Hnot. unfold last_component.
  change ("." +:+ member) with (String "."%char member).
  rewrite split_app_sep, (split_no_sep _ member Hnot).
  by rewrite last_snoc.
Qed.

Lemma last_component_of_dotted_witness :
  last_component ("pkg.models.User" +:+ "." +:+ "identifier") = "identifier".
Proof.
  apply (last_component_of_dotted "pkg.models.User" "identifier").
  vm_compute. intuition discriminate.
Defined.

(** X2: the member name taken from a dotted name never contains a dot,
    whatever the dotted name is (empty, ending in a dot, without dots). *)
Theorem last_component_has_no_dot fullname :
  ¬ In "."%char (String.list_ascii_of_string (last_component fullname)).
Proof.
  unfold last_component.
  pose proof (split_components_no_sep "."%char fullname) as Hall.
  destruct (last (split "." fullname)) as [w|] eqn:Hlast; simpl; [|tauto].
  apply last_Some in Hlast as [ws Heq]. rewrite Heq in Hall.
  apply Forall_app in Hall as [_ Hw]. by inversion Hw.
Qed.

(** ** Signature prefix *)

(** X3: [get_signature_prefix] never answers an empty text or a bare
    space: whatever the options hold, the result is a non-empty label
    followed by one space. *)
Theorem get_signature_prefix_never_blank self sig :
  ∃ label, label ≠ ""
    ∧ PydanticDirectiveBase.get_signature_prefix self sig = label +:+ " ".
Proof.
  destruct (truthy (prefix_override self)) eqn:Htruthy.
  - exists (py_format (prefix_override self)). split.
    + destruct (prefix_override self) as [|[]|s]; simpl in *; try done.
      by case_decide.
    + by apply get_signature_prefix_truthy.
  - exists (default_prefix (kind self)). split.
    + by destruct (kind self).
    + by apply get_signature_prefix_falsy.
Qed.

(** ** Option declarations *)

Lemma dict_update_lookup_notin {V} (d : gmap string V) items key :
  key ∉ items.*1 → dict_update d items !! key = d !! key.
Proof.
  unfold dict_update. revert d.
  induction items as [|[k v] items IH]; intros d Hnotin; simpl; [done|].
  apply not_elem_of_cons in Hnotin as [Hne Hnotin].
  rewrite IH by done. by rewrite lookup_insert_ne.
Qed.

Lemma dict_update_lookup_last {V} (d : gmap string V) items key v :
  dict_update d (items ++ [(key, v)]) !! key = Some v.
Proof.
  unfold dict_update. rewrite foldl_app. simpl. apply lookup_insert_eq.
Qed.

(** X4: every option that the code of a directive reads is declared by
    its class, whatever the host class declares: the
    ['<construct>-signature-prefix'] option of each of the five classes
    with [unchanged], and ['field-show-alias'] and
    ['validator-replace-signature'] with [option_default_true]. *)
Theorem option_spec_declares_options_read host_spec :
  (∀ k, option_spec host_spec k
          !! (config_name k +:+ "-signature-prefix") = Some unchanged)
  ∧ option_spec host_spec KField !! "field-show-alias"
    = Some option_default_true
  ∧ option_spec host_spec KValidator !! "validator-replace-signature"
    = Some option_default_true.
Proof.
  split; [|split].
  - intros k. unfold option_spec.
    destruct k;
      first [ apply (dict_update_lookup_last _ [_])
            | apply (dict_update_lookup_last _ [_; _]) ].
  - unfold option_spec. simpl host_base.
    unfold dict_update. simpl.
    rewrite !lookup_insert_ne by done. apply lookup_insert_eq.
  - unfold option_spec. simpl host_base.
    unfold dict_update. simpl.
    rewrite !lookup_insert_ne by done. apply lookup_insert_eq.
Qed.

(** X5: a directive class inherits every option of its host class that
    it does not declare itself, with the host's converter (and does not
    accept an option that neither declares). *)
Theorem option_spec_inherits_host_options host_spec k key :
  key ∉ (declared_options k).*1 →
  option_spec host_spec k !! key = host_spec (host_base k) !! key.
Proof. intros Hnotin. by apply dict_update_lookup_notin. Qed.

Lemma option_spec_inherits_host_options_witness :
  option_spec sample_host_spec KValidator !! "classmethod"
  = sample_host_spec (host_base KValidator) !! "classmethod".
Proof.
  apply (option_spec_inherits_host_options sample_host_spec KValidator
           "classmethod").
  vm_compute. intros H.
  repeat (apply elem_of_cons in H as [H|H]; [discriminate|]).
  by apply elem_of_nil in H.
Defined.

(** ** Field directive: outcomes of [add_alias] *)

Lemma field_lookup_attributes rt s s' :
  attributes s' = attributes s → field_lookup rt s' = field_lookup rt s.
Proof.
  intros H. unfold field_lookup, ModelWrapper.from_signode. by rewrite H.
Qed.

(** The whole of [add_alias], by the outcome of the lookup. *)
Lemma add_alias_run rt signode :
  PydanticField.add_alias rt signode =
    match field_lookup rt signode with
    | inl e => (signode, inl e)
    | inr f =>
        if decide (alias f ≠ name f)
        then (mk_signode (attributes signode)
                (children signode ++ [alias_annotation (alias f)]), inr ())
        else (signode, inr ())
    end.
Proof.
  unfold PydanticField.add_alias, field_lookup.
  rewrite run_bind. unfold getitem.
  destruct (attributes signode !! "fullname") as [fullname|]; [|done].
  rewrite (run_bind_ret get_signode _ signode signode signode eq_refl).
  rewrite run_bind, run_liftE.
  destruct (ModelWrapper.from_signode rt signode) as [e|wrapper]; [done|].
  rewrite run_bind, run_liftE.
  destruct (ModelWrapper.get_field_object_by_name wrapper
              (last_component fullname)) as [e|f] eqn:Hfield; [done|].
  rewrite (find_field_name _ _ _ Hfield). by case_decide.
Qed.

(** X6: [add_alias] fails exactly when the lookup of the field fails (no
    dotted name on the node, class or field not resolved); it then raises
    the error of the lookup, nothing is swallowed, and the node is left
    as it was. *)
Theorem add_alias_failure_is_atomic rt signode signode' e :
  PydanticField.add_alias rt signode = (signode', inl e)
  ↔ signode' = signode ∧ field_lookup rt signode = inl e.
Proof.
  rewrite add_alias_run.
  destruct (field_lookup rt signode) as [e'|f].
  - split; [by intros [= <- <-]|by intros [-> [= ->]]].
  - split; [by case_decide|by intros [_ ?]].
Qed.

(** X7: on a node that carries no ["fullname"], both [add_alias] and
    [replace_return_node] raise [KeyError]; [add_alias] leaves the node
    untouched, [replace_return_node] has by then dropped the parameter
    list and appended the separator. *)
Theorem missing_fullname_raises_KeyError rt self signode :
  attributes signode !! "fullname" = None →
  PydanticField.add_alias rt signode = (signode, inl (KeyError "fullname"))
  ∧ PydanticValidator.replace_return_node rt self signode
    = (partially_rewritten signode, inl (KeyError "fullname")).
Proof.
  intros Hnone. split.
  - rewrite add_alias_run. unfold field_lookup. by rewrite Hnone.
  - rewrite replace_return_node_run. unfold bound_fields. by rewrite Hnone.
Qed.

Lemma missing_fullname_raises_KeyError_witness :
  let self := Sample.directive KValidator [] in
  let signode := mk_signode ∅ [Sample.parameter_list] in
  PydanticField.add_alias Sample.runtime signode
  = (signode, inl (KeyError "fullname"))
  ∧ PydanticValidator.replace_return_node Sample.runtime self signode
    = (partially_rewritten signode, inl (KeyError "fullname")).
Proof.
  apply (missing_fullname_raises_KeyError Sample.runtime
           (Sample.directive KValidator [])
           (mk_signode ∅ [Sample.parameter_list])).
  reflexivity.
Defined.

(** X8: whatever its outcome, [add_alias] keeps the attributes of the
    node and its children, in order; the only change it ever makes is one
    alias annotation appended at the end, for a field whose alias
    differs from its name. *)
Theorem add_alias_only_appends rt signode :
  attributes (PydanticField.add_alias rt signode).1 = attributes signode
  ∧ (children (PydanticField.add_alias rt signode).1 = children signode
     ∨ ∃ f, field_lookup rt signode = inr f ∧ alias f ≠ name f
            ∧ children (PydanticField.add_alias rt signode).1
              = children signode ++ [alias_annotation (alias f)]).
Proof.
  rewrite add_alias_run.
  destruct (field_lookup rt signode) as [e|f]; [by split; [|left]|].
  case_decide; [|by split; [|left]].
  split; [done|]. right. by exists f.
Qed.

(** X9: [add_alias] does not look at what the node already holds: called
    twice on a node whose field has an alias different from its name, it
    appends the alias annotation twice. *)
Theorem add_alias_twice_appends_twice rt signode f :
  field_lookup rt signode = inr f →
  alias f ≠ name f →
  ∃ once,
    PydanticField.add_alias rt signode = (once, inr ())
    ∧ PydanticField.add_alias rt once
      = (mk_signode (attributes signode)
           (children signode
              ++ [alias_annotation (alias f); alias_annotation (alias f)]),
         inr ()).
Proof.
  intros Hlookup Hne. eexists. split.
  - rewrite add_alias_run, Hlookup. by case_decide.
  - rewrite add_alias_run, (field_lookup_attributes rt signode) by done.
    rewrite Hlookup. case_decide; [|done]. simpl.
    by rewrite <- app_assoc.
Qed.

Lemma add_alias_twice_appends_twice_witness :
  let signode := Sample.node "User.identifier" [Sample.name_node "identifier"] in
  ∃ once,
    PydanticField.add_alias Sample.runtime signode = (once, inr ())
    ∧ PydanticField.add_alias Sample.runtime once
      = (mk_signode (attributes signode)
           (children signode
              ++ [alias_annotation "id"; alias_annotation "id"]),
         inr ()).
Proof.
  apply (add_alias_twice_appends_twice Sample.runtime
           (Sample.node "User.identifier" [Sample.name_node "identifier"])
           {| name := "identifier"; alias := "id" |}).
  - reflexivity.
  - discriminate.
Defined.

(** ** Signature handling of every directive *)

Lemma post_processing_attributes rt self signode :
  attributes (post_processing rt self signode).1 = attributes signode.
Proof.
  unfold post_processing. destruct (kind self); try done.
  - destruct (truthy _); [|done]. rewrite add_alias_run.
    destruct (field_lookup rt signode) as [e|f]; [done|]. by case_decide.
  - destruct (truthy _); [|done]. rewrite replace_return_node_run.
    by destruct (bound_fields rt signode) as [e|[|field fields]].
Qed.

(** X10: when ['field-show-alias'] resolves false, [handle_signature] of
    the field directive is the host's generic handling and nothing more:
    same node, same pair, same exception, and no class is looked up. *)
Theorem field_handle_signature_alias_disabled host rt self sig signode :
  truthy (get_option_value (pyautodoc self) "field-show-alias") = false →
  PydanticField.handle_signature host rt self sig signode
  = generic_handle_signature host PyAttribute
      (PydanticDirectiveBase.get_signature_prefix self) sig signode.
Proof.
  intros Hopt. unfold PydanticField.handle_signature. rewrite run_bind.
  destruct (generic_handle_signature _ _ _ _ _)
    as [signode' [e|[fullname prefix]]]; [done|].
  simpl. by rewrite Hopt.
Qed.

Lemma field_handle_signature_alias_disabled_witness :
  let self := Sample.directive KField [("field-show-alias", PyBool false)] in
  PydanticField.handle_signature Sample.appending_host Sample.runtime self
    "Unknown.identifier" Sample.empty_node
  = generic_handle_signature Sample.appending_host PyAttribute
      (PydanticDirectiveBase.get_signature_prefix self)
      "Unknown.identifier" Sample.empty_node.
Proof.
  apply (field_handle_signature_alias_disabled Sample.appending_host
           Sample.runtime
           (Sample.directive KField [("field-show-alias", PyBool false)])).
  reflexivity.
Defined.

(** X11: for each of the five directives, an exception raised by the
    host's generic handling comes out of [handle_signature] as it is, on
    the node as the host left it; the directive's own step does not run,
    whatever the options and the class metadata. *)
Theorem handle_signature_host_failure host rt self sig signode signode' e :
  generic_handle_signature host (host_base (kind self))
    (PydanticDirectiveBase.get_signature_prefix self) sig signode
    = (signode', inl e) →
  handle_signature host rt self sig signode = (signode', inl e).
Proof.
  intros Hhost. rewrite handle_signature_post_processing.
  by rewrite run_bind, Hhost.
Qed.

(** X12: for each of the five directives, when [handle_signature]
    returns, the pair it returns is the one the host's generic handling
    returned, and the attributes of the node (its dotted name among
    them) are as the host left them. *)
Theorem handle_signature_returns_host_pair host rt self sig signode
    signode' result :
  handle_signature host rt self sig signode = (signode', inr result) →
  ∃ rendered,
    generic_handle_signature host (host_base (kind self))
      (PydanticDirectiveBase.get_signature_prefix self) sig signode
      = (rendered, inr result)
    ∧ post_processing rt self rendered = (signode', inr ())
    ∧ attributes signode' = attributes rendered.
Proof.
  rewrite handle_signature_post_processing, run_bind.
  destruct (generic_handle_signature _ _ _ _ _)
    as [rendered [e|[fullname prefix]]]; [done|].
  simpl. rewrite run_bind.
  pose proof (post_processing_attributes rt self rendered) as Hattrs.
  destruct (post_processing rt self rendered) as [s [e|[]]] eqn:Hpost;
    [done|].
  simpl in Hattrs. intros [= -> <-]. by exists rendered.
Qed.

Lemma handle_signature_host_failure_witness :
  handle_signature strict_host Sample.runtime
    (Sample.directive KValidator
       [("validator-replace-signature", PyBool true)])
    "" (Sample.node "User.check_all" [Sample.parameter_list])
  = (Sample.node "User.check_all" [Sample.parameter_list],
     inl (HostError "invalid signature")).
Proof.
  apply (handle_signature_host_failure strict_host Sample.runtime
           (Sample.directive KValidator
              [("validator-replace-signature", PyBool true)])).
  reflexivity.
Defined.

Lemma handle_signature_returns_host_pair_witness :
  let self := Sample.directive KField [("field-show-alias", PyBool true)] in
  ∃ rendered,
    generic_handle_signature Sample.appending_host (host_base (kind self))
      (PydanticDirectiveBase.get_signature_prefix self) "User.identifier"
      Sample.empty_node
      = (rendered, inr ("User.identifier", "attribute "))
    ∧ post_processing Sample.runtime self rendered
      = ((handle_signature Sample.appending_host Sample.runtime self
            "User.identifier" Sample.empty_node).1, inr ())
    ∧ attributes (handle_signature Sample.appending_host Sample.runtime self
                    "User.identifier" Sample.empty_node).1
      = attributes rendered.
Proof.
  apply (handle_signature_returns_host_pair Sample.appending_host
           Sample.runtime
           (Sample.directive KField [("field-show-alias", PyBool true)])
           "User.identifier" Sample.empty_node).
  reflexivity.
Defined.

(** X13: with ['field-show-alias'] resolving true, a field whose class
    or declaration cannot be resolved is a hard failure of
    [handle_signature]: the error of the lookup is raised, no pair is
    returned, and the node stays as the host's generic handling left it,
    without alias annotation. *)
Theorem field_handle_signature_unresolved host rt self sig signode
    rendered result e :
  generic_handle_signature host PyAttribute
    (PydanticDirectiveBase.get_signature_prefix self) sig signode
    = (rendered, inr result) →
  truthy (get_option_value (pyautodoc self) "field-show-alias") = true →
  field_lookup rt rendered = inl e →
  PydanticField.handle_signature host rt self sig signode
  = (rendered, inl e).
Proof.
  intros Hhost Hopt Hlookup. destruct result as [fullname prefix].
  unfold PydanticField.handle_signature.
  rewrite (run_bind_ret _ _ _ _ _ Hhost). simpl. rewrite Hopt.
  by rewrite run_bind, add_alias_run, Hlookup.
Qed.

Lemma field_handle_signature_unresolved_witness :
  let self := Sample.directive KField [("field-show-alias", PyBool true)] in
  PydanticField.handle_signature Sample.appending_host Sample.runtime self
    "User.nickname" Sample.empty_node
  = ((generic_handle_signature Sample.appending_host PyAttribute
        (PydanticDirectiveBase.get_signature_prefix self) "User.nickname"
        Sample.empty_node).1,
     inl (UnresolvedMember "nickname")).
Proof.
  apply (field_handle_signature_unresolved Sample.appending_host
           Sample.runtime
           (Sample.directive KField [("field-show-alias", PyBool true)])
           "User.nickname" Sample.empty_node _
           ("User.nickname", "attribute ")).
  - reflexivity.
  - reflexivity.
  - reflexivity.
Defined.

(** ** Validator directive: shape of the rewritten node *)

Lemma remove_node_by_tagname_keeps nodes tag :
  Forall (λ n, tagname n ≠ tag) nodes →
  remove_node_by_tagname nodes tag = nodes.
Proof.
  unfold remove_node_by_tagname.
  induction 1 as [|n nodes Hn _ IH]; simpl; [done|].
  apply String.eqb_neq in Hn. by rewrite Hn, IH.
Qed.

Lemma validator_suffix_tags self fields :
  Forall (λ n, tagname n ≠ "desc_parameterlist")
    (validator_suffix self fields).
Proof. constructor; [done|apply join_nodes_tags]. Qed.

Lemma length_validator_suffix self field fields :
  length (validator_suffix self (field :: fields))
  = 2 * length (field :: fields).
Proof.
  unfold validator_suffix. simpl map. rewrite join_nodes_cons. simpl.
  induction fields as [|g fields IH]; simpl in *; lia.
Qed.

(** The whole of [replace_return_node] on a validator with fields. *)
Lemma replace_return_node_fields rt self signode field fields :
  bound_fields rt signode = inr (field :: fields) →
  PydanticValidator.replace_return_node rt self signode
  = (mk_signode (attributes signode)
       (remove_node_by_tagname (children signode) "desc_parameterlist"
          ++ validator_suffix self (field :: fields)),
     inr ()).
Proof.
  intros Hbound. rewrite replace_return_node_run, Hbound.
  simpl children. by rewrite <- app_assoc.
Qed.

(** X14: whatever its outcome, [replace_return_node] keeps the
    attributes of the node, leaves no parameter list among its children,
    and keeps every other child, in order, before the separator
    annotation that it appends. *)
Theorem replace_return_node_shape rt self signode :
  let after := (PydanticValidator.replace_return_node rt self signode).1 in
  attributes after = attributes signode
  ∧ Forall (λ n, tagname n ≠ "desc_parameterlist") (children after)
  ∧ ∃ rest,
      children after
      = remove_node_by_tagname (children signode) "desc_parameterlist"
          ++ validator_arrow :: rest.
Proof.
  simpl. rewrite replace_return_node_run.
  destruct (bound_fields rt signode) as [e|[|field fields]]; simpl.
  - split; [done|]. split; [|by exists []].
    apply Forall_app. split; [apply remove_node_by_tagname_tags|].
    by repeat constructor.
  - split; [done|]. split; [|by exists []].
    apply Forall_app. split; [apply remove_node_by_tagname_tags|].
    by repeat constructor.
  - split; [done|]. rewrite <- app_assoc. split.
    + apply Forall_app. split; [apply remove_node_by_tagname_tags|].
      apply (validator_suffix_tags self (field :: fields)).
    + by eexists.
Qed.

(** X15: for a validator bound to N >= 1 fields, [replace_return_node]
    appends exactly 2 N nodes (the separator, N references and N - 1
    commas) to the children that are not parameter lists. *)
Theorem replace_return_node_appends_2n rt self signode field fields :
  bound_fields rt signode = inr (field :: fields) →
  length (children (PydanticValidator.replace_return_node rt self signode).1)
  = length (remove_node_by_tagname (children signode) "desc_parameterlist")
    + 2 * length (field :: fields).
Proof.
  intros Hbound. rewrite (replace_return_node_fields _ _ _ _ _ Hbound).
  simpl fst. simpl children.
  by rewrite length_app, length_validator_suffix.
Qed.

Lemma replace_return_node_appends_2n_witness :
  let self := Sample.directive KValidator [] in
  let signode :=
    Sample.node "User.check_all"
      [Sample.name_node "check_all"; Sample.parameter_list] in
  length (children
            (PydanticValidator.replace_return_node Sample.runtime self
               signode).1)
  = length (remove_node_by_tagname (children signode) "desc_parameterlist")
    + 2 * length ["a"; "b"; "c"].
Proof.
  apply (replace_return_node_appends_2n Sample.runtime
           (Sample.directive KValidator [])
           (Sample.node "User.check_all"
              [Sample.name_node "check_all"; Sample.parameter_list])
           "a" ["b"; "c"]).
  reflexivity.
Defined.

(** X16: [replace_return_node] does not look at what the node already
    holds: called twice on a validator with fields, it appends the
    separator and the field references twice; the first call's nodes
    are kept by the second, which finds no parameter list to remove. *)
Theorem replace_return_node_twice_appends_twice rt self signode field
    fields :
  bound_fields rt signode = inr (field :: fields) →
  ∃ once,
    PydanticValidator.replace_return_node rt self signode = (once, inr ())
    ∧ PydanticValidator.replace_return_node rt self once
      = (mk_signode (attributes signode)
           (remove_node_by_tagname (children signode) "desc_parameterlist"
              ++ validator_suffix self (field :: fields)
              ++ validator_suffix self (field :: fields)),
         inr ()).
Proof.
  intros Hbound. eexists. split.
  - by apply replace_return_node_fields.
  - rewrite (replace_return_node_fields rt self _ field fields)
      by (by rewrite (bound_fields_attributes rt signode)).
    simpl attributes. simpl children.
    rewrite remove_node_by_tagname_app, remove_node_by_tagname_idem.
    rewrite (remove_node_by_tagname_keeps (validator_suffix _ _))
      by apply validator_suffix_tags.
    by rewrite <- app_assoc.
Qed.

Lemma replace_return_node_twice_appends_twice_witness :
  let self := Sample.directive KValidator [] in
  let signode :=
    Sample.node "User.check_all"
      [Sample.name_node "check_all"; Sample.parameter_list] in
  ∃ once,
    PydanticValidator.replace_return_node Sample.runtime self signode
    = (once, inr ())
    ∧ PydanticValidator.replace_return_node Sample.runtime self once
      = (mk_signode (attributes signode)
           (remove_node_by_tagname (children signode) "desc_parameterlist"
              ++ validator_suffix self ["a"; "b"; "c"]
              ++ validator_suffix self ["a"; "b"; "c"]),
         inr ()).
Proof.
  apply (replace_return_node_twice_appends_twice Sample.runtime
           (Sample.directive KValidator [])
           (Sample.node "User.check_all"
              [Sample.name_node "check_all"; Sample.parameter_list])
           "a" ["b"; "c"]).
  reflexivity.
Defined.

(** X17: with ['validator-replace-signature'] resolving true, a validator
    whose fields cannot be looked up, or that has none, is a hard failure
    of [handle_signature]: no pair is returned, and the node that the
    host rendered has lost its parameter list and gained the separator
    annotation. *)
Theorem validator_handle_signature_failure host rt self sig signode
    rendered result :
  generic_handle_signature host PyMethod
    (PydanticDirectiveBase.get_signature_prefix self) sig signode
    = (rendered, inr result) →
  truthy (get_option_value (pyautodoc self) "validator-replace-signature")
    = true →
  (∀ field fields, bound_fields rt rendered ≠ inr (field :: fields)) →
  ∃ e,
    PydanticValidator.handle_signature host rt self sig signode
    = (partially_rewritten rendered, inl e).
Proof.
  intros Hhost Hopt Hfail. destruct result as [fullname prefix].
  unfold PydanticValidator.handle_signature.
  rewrite (run_bind_ret _ _ _ _ _ Hhost). simpl. rewrite Hopt.
  rewrite run_bind, replace_return_node_run.
  destruct (bound_fields rt rendered) as [e|[|field fields]]; eauto.
  by destruct (Hfail field fields).
Qed.

Lemma validator_handle_signature_failure_witness :
  let self :=
    Sample.directive KValidator
      [("validator-replace-signature", PyBool true)] in
  ∃ e,
    PydanticValidator.handle_signature Sample.appending_host Sample.runtime
      self "Order.check_total" Sample.empty_node
    = (partially_rewritten
         (generic_handle_signature Sample.appending_host PyMethod
            (PydanticDirectiveBase.get_signature_prefix self)
            "Order.check_total" Sample.empty_node).1,
       inl e).
Proof.
  apply (validator_handle_signature_failure Sample.appending_host
           Sample.runtime
           (Sample.directive KValidator
              [("validator-replace-signature", PyBool true)])
           "Order.check_total" Sample.empty_node _
           ("Order.check_total", "classmethod ")).
  - reflexivity.
  - reflexivity.
  - intros field fields. vm_compute. discriminate.
Defined.

(** ** Handling the output of a first call again *)

Section handled_again.

Variables (host : Host) (rt : Runtime) (self : Directive) (sig : string).

Lemma post_processing_idle signode :
  own_step_idle rt self signode = true →
  (post_processing rt self signode).1 = signode.
Proof.
  unfold own_step_idle, post_processing.
  destruct (kind self); try done.
  - destruct (truthy _); simpl; [|done]. rewrite add_alias_run.
    destruct (field_lookup rt signode) as [e|f]; [done|].
    intros Heq%bool_decide_eq_true. by case_decide.
  - by destruct (truthy _).
Qed.

Lemma post_processing_adds_alias signode :
  kind self = KField →
  own_step_idle rt self signode = false →
  ∃ f, children (post_processing rt self signode).1
       = children signode ++ [alias_annotation (alias f)].
Proof.
  unfold own_step_idle, post_processing. intros ->.
  destruct (truthy _); simpl; [|done]. rewrite add_alias_run.
  destruct (field_lookup rt signode) as [e|f]; [done|].
  intros Hne%bool_decide_eq_false. exists f. by case_decide.
Qed.

Lemma post_processing_adds_arrow signode :
  kind self = KValidator →
  own_step_idle rt self signode = false →
  ∃ rest, children (post_processing rt self signode).1
          = remove_node_by_tagname (children signode) "desc_parameterlist"
              ++ validator_arrow :: rest.
Proof.
  unfold own_step_idle, post_processing. intros ->.
  destruct (truthy _); simpl; [|done]. intros _.
  rewrite replace_return_node_run.
  destruct (bound_fields rt signode) as [e|[|field fields]]; simpl;
    [by exists []|by exists []|].
  eexists. by rewrite <- app_assoc.
Qed.

Lemma own_step_idle_false_kind signode :
  own_step_idle rt self signode = false →
  kind self = KField ∨ kind self = KValidator.
Proof. unfold own_step_idle. destruct (kind self); auto; done. Qed.

Lemma handle_signature_after_host signode rendered result :
  generic_handle_signature host (host_base (kind self))
    (PydanticDirectiveBase.get_signature_prefix self) sig signode
    = (rendered, inr result) →
  (handle_signature host rt self sig signode).1
  = (post_processing rt self rendered).1.
Proof.
  intros Hhost. rewrite handle_signature_post_processing.
  rewrite (run_bind_ret _ _ _ _ _ Hhost). destruct result as [fullname prefix].
  simpl. rewrite run_bind.
  by destruct (post_processing rt self rendered) as [s [e|[]]].
Qed.

(** What a validator directive returns carries no parameter list. *)
Lemma validator_output_tags signode once result :
  kind self = KValidator →
  truthy (get_option_value (pyautodoc self) "validator-replace-signature")
    = true →
  handle_signature host rt self sig signode = (once, inr result) →
  Forall (λ n, tagname n ≠ "desc_parameterlist") (children once).
Proof.
  intros Hkind Hopt. rewrite handle_signature_post_processing, run_bind.
  destruct (generic_handle_signature _ _ _ _ _)
    as [rendered [e|[fullname prefix]]]; [done|].
  simpl. rewrite run_bind. unfold post_processing. rewrite Hkind, Hopt.
  rewrite replace_return_node_run.
  destruct (bound_fields rt rendered) as [e|[|field fields]]; try done.
  intros [= <- _]. unfold partially_rewritten. cbn [children].
  rewrite <- app_assoc.
  apply Forall_app. split; [apply remove_node_by_tagname_tags|].
  constructor; [done|]. apply (join_nodes_tags self (field :: fields)).
Qed.

(** C8, as amended: a directive keeps no state between calls and each
    call is independent, but a call is idempotent only trivially. Under
    a host whose generic handling keeps the children already on the
    node, handling the output of a first call again gives the same node
    exactly when, on that second call, the host's handling leaves the
    node as it is and the directive's own step adds nothing (class-like
    directive; option resolving false; field not resolved or alias equal
    to its name). When the directive's own step does add (a field with
    show-alias true whose alias differs from its name, a validator with
    replace-signature true), the second call leaves strictly more
    children on the node than the first. *)
Theorem handle_signature_again signode once result rendered result' :
  handle_signature host rt self sig signode = (once, inr result) →
  generic_handle_signature host (host_base (kind self))
    (PydanticDirectiveBase.get_signature_prefix self) sig once
    = (rendered, inr result') →
  children once `prefix_of` children rendered →
  let twice := (handle_signature host rt self sig once).1 in
  (twice = once ↔ rendered = once ∧ own_step_idle rt self rendered = true)
  ∧ (own_step_idle rt self rendered = false →
     length (children once) < length (children twice)).
Proof.
  intros Hfirst Hhost [extra Hextra] twice. unfold twice.
  rewrite (handle_signature_after_host _ _ _ Hhost).
  destruct (own_step_idle rt self rendered) eqn:Hidle.
  - rewrite (post_processing_idle _ Hidle). split; [tauto|done].
  - assert (length (children once)
            < length (children (post_processing rt self rendered).1))
      as Hlen.
    { destruct (own_step_idle_false_kind _ Hidle) as [Hkind|Hkind].
      - destruct (post_processing_adds_alias _ Hkind Hidle) as [f ->].
        rewrite Hextra, !length_app. simpl. lia.
      - destruct (post_processing_adds_arrow _ Hkind Hidle) as [rest ->].
        assert (truthy (get_option_value (pyautodoc self)
                          "validator-replace-signature") = true) as Hopt.
        { revert Hidle. unfold own_step_idle. rewrite Hkind.
          by destruct (truthy _). }
        rewrite Hextra, remove_node_by_tagname_app.
        rewrite (remove_node_by_tagname_keeps (children once))
          by apply (validator_output_tags _ _ _ Hkind Hopt Hfirst).
        rewrite !length_app. simpl. lia. }
    split; [|done]. split; [|by intros [_ ?]].
    intros Heq. rewrite Heq in Hlen. lia.
Qed.

End handled_again.

Lemma handle_signature_again_witness :
  let self := Sample.directive KField [("field-show-alias", PyBool true)] in
  let handle :=
    handle_signature Sample.appending_host Sample.runtime self
      "User.identifier" in
  let once := (handle Sample.empty_node).1 in
  let rendered :=
    (generic_handle_signature Sample.appending_host PyAttribute
       (PydanticDirectiveBase.get_signature_prefix self) "User.identifier"
       once).1 in
  let twice := (handle once).1 in
  own_step_idle Sample.runtime self rendered = false
  ∧ length (children once) = 3
  ∧ length (children twice) = 6
  ∧ (twice = once
     ↔ rendered = once ∧ own_step_idle Sample.runtime self rendered = true)
  ∧ (own_step_idle Sample.runtime self rendered = false →
     length (children once) < length (children twice)).
Proof.
  split; [reflexivity|]. split; [reflexivity|]. split; [reflexivity|].
  apply (handle_signature_again Sample.appending_host Sample.runtime
           (Sample.directive KField [("field-show-alias", PyBool true)])
           "User.identifier" Sample.empty_node _
           ("User.identifier", "attribute ") _
           ("User.identifier", "attribute ")).
  - reflexivity.
  - reflexivity.
  - eexists. reflexivity.
Defined.
